(** * Mergington High School activities API: the roster and its handlers

    A shallow embedding of [src/app.py].  The module-level dict
    [activities] is the only state of the program; every handler reads or
    mutates it.  Handlers are written in a small state-and-exception monad
    over that dict, so that each definition below can be read next to the
    Python function of the same name. *)

From Stdlib Require Import ZArith String.
From stdpp Require Import base tactics option list strings.

Local Open Scope Z_scope.

(** ** Data model *)

(** One value of the [activities] dict: a dict with the four keys
    ["description"], ["schedule"], ["max_participants"], ["participants"]. *)
Record Activity := mkActivity {
  description : string;
  schedule : string;
  max_participants : Z;
  participants : list string
}.

(** The [activities] dict.  A Python dict keeps its keys in insertion order,
    so it is an association list here; the handlers never insert or delete a
    key.  Every activity of the source is built by its own dict literal with
    its own list literal, so no two entries share an object and a value model
    of the store is exact. *)
Abbreviation Roster := (list (string * Activity)).

(** [dict.keys()] *)
Definition keys (d : Roster) : list string := d.*1.

(** [key in d] *)
Fixpoint dict_contains (key : string) (d : Roster) : bool :=
  match d with
  | [] => false
  | (k, _) :: d' => if String.eqb k key then true else dict_contains key d'
  end.

(** [d[key]]; [None] stands for Python's [KeyError]. *)
Fixpoint dict_getitem (key : string) (d : Roster) : option Activity :=
  match d with
  | [] => None
  | (k, a) :: d' => if String.eqb k key then Some a else dict_getitem key d'
  end.

(** The effect on the store of mutating the list object held by
    [d[key]["participants"]] so that it now reads [ps]: the entry keeps its
    position and its other fields. *)
Fixpoint set_participants (key : string) (ps : list string) (d : Roster) : Roster :=
  match d with
  | [] => []
  | (k, a) :: d' =>
      if String.eqb k key
      then (k, mkActivity (description a) (schedule a) (max_participants a) ps) :: d'
      else (k, a) :: set_participants key ps d'
  end.

(** [x in l] on a list of strings: a left-to-right scan with [==]. *)
Fixpoint list_contains (x : string) (l : list string) : bool :=
  match l with
  | [] => false
  | y :: l' => if String.eqb y x then true else list_contains x l'
  end.

(** [l.append(x)] *)
Definition list_append (l : list string) (x : string) : list string := l ++ [x].

(** [l.remove(x)]: drops the first item equal to [x]; [None] stands for the
    [ValueError] Python raises when there is none. *)
Fixpoint list_remove_first (x : string) (l : list string) : option (list string) :=
  match l with
  | [] => None
  | y :: l' =>
      if String.eqb y x then Some l'
      else match list_remove_first x l' with
           | Some r => Some (y :: r)
           | None => None
           end
  end.

(** ** Exceptions and the handler monad *)

Inductive exn :=
  | HTTPException (status_code : Z) (detail : string)
  | KeyError (key : string)
  | ValueError (msg : string).

(** A handler runs on the current store and leaves a store and either the
    exception it raised or the value it returned. *)
Definition M (A : Type) : Type := Roster → Roster * (exn + A).

#[global] Instance M_ret : MRet M := λ A x s, (s, inr x).

#[global] Instance M_bind : MBind M := λ A B f m s,
  match m s with
  | (s', inl e) => (s', inl e)
  | (s', inr x) => f x s'
  end.

Definition raise {A : Type} (e : exn) : M A := λ s, (s, inl e).

(** [activity_name in activities] *)
Definition activities_contains (activity_name : string) : M bool :=
  λ s, (s, inr (dict_contains activity_name s)).

(** [activities[activity_name]] *)
Definition activities_getitem (activity_name : string) : M Activity :=
  λ s, match dict_getitem activity_name s with
       | Some a => (s, inr a)
       | None => (s, inl (KeyError activity_name))
       end.

(** Write-back of an in-place list mutation on
    [activities[activity_name]["participants"]]. *)
Definition mutate_participants (activity_name : string) (ps : list string) : M unit :=
  λ s, (set_participants activity_name ps s, inr ()).

(** ** The seeded store (app.py, lines 23-81) *)

Definition activities : Roster := [
  ("Chess Club",
   mkActivity "Learn strategies and compete in chess tournaments"
     "Fridays, 3:30 PM - 5:00 PM" 12
     ["michael@mergington.edu"; "daniel@mergington.edu"]);
  ("Programming Class",
   mkActivity "Learn programming fundamentals and build software projects"
     "Tuesdays and Thursdays, 3:30 PM - 4:30 PM" 20
     ["emma@mergington.edu"; "sophia@mergington.edu"]);
  ("Gym Class",
   mkActivity "Physical education and sports activities"
     "Mondays, Wednesdays, Fridays, 2:00 PM - 3:00 PM" 30
     ["john@mergington.edu"; "olivia@mergington.edu"]);
  ("Soccer Team",
   mkActivity "Join the school soccer team for practices and matches"
     "Tuesdays and Thursdays, 4:00 PM - 6:00 PM" 22
     ["alex@mergington.edu"; "lisa@mergington.edu"]);
  ("Basketball Club",
   mkActivity "Practice skills and play friendly games"
     "Wednesdays and Saturdays, 4:00 PM - 6:00 PM" 15
     ["mike@mergington.edu"; "nina@mergington.edu"]);
  ("Art Club",
   mkActivity "Explore drawing, painting, and mixed media projects"
     "Mondays, 3:30 PM - 5:30 PM" 18
     ["lucas@mergington.edu"; "mia@mergington.edu"]);
  ("Drama Club",
   mkActivity "Acting workshops and stage productions"
     "Wednesdays, 4:00 PM - 6:00 PM" 25
     ["ashley@mergington.edu"; "ben@mergington.edu"]);
  ("Debate Team",
   mkActivity "Learn argumentation, public speaking, and competitive debating"
     "Tuesdays, 5:00 PM - 7:00 PM" 20
     ["chris@mergington.edu"; "taylor@mergington.edu"]);
  ("Science Olympiad",
   mkActivity "Prepare for science competitions across multiple disciplines"
     "Fridays, 4:00 PM - 6:00 PM" 16
     ["oliver@mergington.edu"; "sara@mergington.edu"])
].

(** ** Handlers *)

(** [RedirectResponse(url=...)]; its [status_code] is the default of the
    web framework's class, 307, as [test_root_redirect] asserts. *)
Record RedirectResponse := mkRedirectResponse {
  url : string;
  redirect_status_code : Z
}.

(** The [{"message": ...}] dict the two mutating handlers return. *)
Record Message := mkMessage { message : string }.

(** [GET /] *)
Definition root : M RedirectResponse :=
  mret (mkRedirectResponse "/static/index.html" 307).

(** [GET /activities]: returns the store itself. *)
Definition get_activities : M Roster :=
  λ s, (s, inr s).

(** [POST /activities/{activity_name}/signup] *)
Definition signup_for_activity (activity_name email : string) : M Message :=
  known ← activities_contains activity_name;
  if negb known then raise (HTTPException 404 "Activity not found") else
  activity ← activities_getitem activity_name;
  if list_contains email (participants activity)
  then raise (HTTPException 400 "Student is already signed up") else
  mutate_participants activity_name (list_append (participants activity) email);;
  mret (mkMessage ("Signed up " +:+ email +:+ " for " +:+ activity_name)).

(** [DELETE /activities/{activity_name}/unregister] *)
Definition unregister_from_activity (activity_name email : string) : M Message :=
  known ← activities_contains activity_name;
  if negb known then raise (HTTPException 404 "Activity not found") else
  activity ← activities_getitem activity_name;
  if negb (list_contains email (participants activity))
  then raise (HTTPException 400 "Student is not signed up for this activity") else
  match list_remove_first email (participants activity) with
  | Some ps => mutate_participants activity_name ps
  | None => raise (ValueError "list.remove(x): x not in list")
  end;;
  mret (mkMessage ("Unregistered " +:+ email +:+ " from " +:+ activity_name)).

(** ** The four routes as requests, and runs of the service *)

Inductive request :=
  | GetRoot
  | GetActivities
  | PostSignup (activity_name email : string)
  | DeleteUnregister (activity_name email : string).

Inductive response :=
  | Redirect (r : RedirectResponse)
  | ActivitiesJson (r : Roster)
  | MessageJson (m : Message).

Definition handle (rq : request) : M response :=
  match rq with
  | GetRoot => r ← root; mret (Redirect r)
  | GetActivities => r ← get_activities; mret (ActivitiesJson r)
  | PostSignup n e => m ← signup_for_activity n e; mret (MessageJson m)
  | DeleteUnregister n e => m ← unregister_from_activity n e; mret (MessageJson m)
  end.

(** The store after serving a sequence of requests, one after the other; a
    request that raises leaves the store as the handler left it. *)
Fixpoint run (rqs : list request) (s : Roster) : Roster :=
  match rqs with
  | [] => s
  | rq :: rqs' => run rqs' (handle rq s).1
  end.

Definition is_read (rq : request) : bool :=
  match rq with
  | GetRoot | GetActivities => true
  | _ => false
  end.

(** The two error responses of a signup, and the one more of unregister. *)
Definition NotFound : exn := HTTPException 404 "Activity not found".
Definition AlreadyRegistered : exn := HTTPException 400 "Student is already signed up".
Definition NotRegistered : exn :=
  HTTPException 400 "Student is not signed up for this activity".

(** No participant list of the store lists an email twice. *)
Definition no_duplicates (d : Roster) : Prop :=
  Forall (λ e, NoDup (participants e.2)) d.

(** The stores the test suite installs. *)
Definition signup_test_activities : Roster := [
  ("Test Activity",
   mkActivity "A test activity" "Test schedule" 2 ["existing@mergington.edu"]);
  ("Full Activity",
   mkActivity "A full test activity" "Test schedule" 1 ["full@mergington.edu"])
].

Definition unregister_test_activities : Roster := [
  ("Test Activity",
   mkActivity "A test activity" "Test schedule" 3
     ["student1@mergington.edu"; "student2@mergington.edu"]);
  ("Empty Activity",
   mkActivity "An empty test activity" "Test schedule" 2 [])
].

Definition integrity_test_activities : Roster := [
  ("Math Club",
   mkActivity "Mathematics activities" "Mondays 3-4 PM" 2 ["alice@mergington.edu"])
].

(** ** The test harness (tests/conftest.py, tests/test_app.py) *)

(** [d[key] = value]: a key of the dict keeps its place and gets the new
    value, a new key goes to the end. *)
Fixpoint dict_setitem (key : string) (value : Activity) (d : Roster) : Roster :=
  match d with
  | [] => [(key, value)]
  | (k, a) :: d' =>
      if String.eqb k key then (k, value) :: d'
      else (k, a) :: dict_setitem key value d'
  end.

(** [d.update(other)]: [d[k] = v] for the items of [other], in its order. *)
Definition dict_update (d other : Roster) : Roster :=
  fold_left (λ acc kv, dict_setitem kv.1 kv.2 acc) other d.

(** [activities.copy()]: a new dict with the same items.  The copy is
    shallow, but the activities it shares with the store are out of the
    store's reach once the store is cleared. *)
Definition activities_copy : M Roster := λ s, (s, inr s).

(** [activities.clear()] *)
Definition activities_clear : M unit := λ _, ([], inr ()).

(** [activities.update(other)] *)
Definition activities_update (other : Roster) : M unit :=
  λ s, (dict_update s other, inr ()).

(** The known state the [sample_activities] fixture installs. *)
Definition sample_activities_state : Roster := [
  ("Test Activity",
   mkActivity "A test activity" "Test schedule" 2 ["test1@mergington.edu"]);
  ("Empty Activity",
   mkActivity "An empty test activity" "Test schedule" 1 [])
].

(** The [sample_activities] fixture up to its [yield]; it returns its local
    [original_activities], which the part after the [yield] uses. *)
Definition sample_activities_setup : M Roster :=
  original_activities ← activities_copy;
  activities_clear;;
  activities_update sample_activities_state;;
  mret original_activities.

(** The [sample_activities] fixture after its [yield]. *)
Definition sample_activities_teardown (original_activities : Roster) : M unit :=
  activities_clear;;
  activities_update original_activities.

(** [setup_method] of the three test classes that reset the store, each with
    the dict literal it installs. *)
Definition setup_method (known_state : Roster) : M unit :=
  activities_clear;;
  activities_update known_state.

(** Unfolds a handler down to the primitives of the store. *)
Ltac unfold_handler :=
  unfold signup_for_activity, unregister_from_activity, mbind, M_bind, mret, M_ret,
    raise, activities_contains, activities_getitem, mutate_participants; simpl.

Example signup_math_club :
  signup_for_activity "Math Club" "bob@mergington.edu" integrity_test_activities
  = ([("Math Club",
       mkActivity "Mathematics activities" "Mondays 3-4 PM" 2
         ["alice@mergington.edu"; "bob@mergington.edu"])],
     inr (mkMessage "Signed up bob@mergington.edu for Math Club")).
Proof. reflexivity. Qed.

Example unregister_student1 :
  unregister_from_activity "Test Activity" "student1@mergington.edu"
    unregister_test_activities
  = ([("Test Activity",
       mkActivity "A test activity" "Test schedule" 3 ["student2@mergington.edu"]);
      ("Empty Activity",
       mkActivity "An empty test activity" "Test schedule" 2 [])],
     inr (mkMessage "Unregistered student1@mergington.edu from Test Activity")).
Proof. reflexivity. Qed.

(** ** Facts about the list and dict primitives *)

Lemma list_contains_true (x : string) (l : list string) :
  list_contains x l = true ↔ x ∈ l.
Proof.
  induction l as [|y l IH]; simpl.
  - split; [discriminate | by intros ?%elem_of_nil].
  - rewrite elem_of_cons. destruct (String.eqb_spec y x) as [->|Hne].
    + intuition congruence.
    + rewrite IH. intuition congruence.
Qed.

Lemma list_contains_false (x : string) (l : list string) :
  list_contains x l = false ↔ x ∉ l.
Proof.
  rewrite <- list_contains_true. destruct (list_contains x l); intuition congruence.
Qed.

Lemma dict_contains_getitem (key : string) (d : Roster) :
  dict_contains key d = true ↔ is_Some (dict_getitem key d).
Proof.
  induction d as [|[k a] d IH]; simpl.
  - split; [discriminate | by intros [? ?]].
  - destruct (String.eqb k key); [|done]. split; eauto.
Qed.

Lemma dict_contains_keys (key : string) (d : Roster) :
  dict_contains key d = true ↔ key ∈ keys d.
Proof.
  unfold keys. induction d as [|[k a] d IH]; simpl.
  - split; [discriminate | by intros ?%elem_of_nil].
  - rewrite elem_of_cons. destruct (String.eqb_spec k key) as [->|Hne].
    + intuition congruence.
    + rewrite IH. intuition congruence.
Qed.

Lemma dict_getitem_None (key : string) (d : Roster) :
  dict_getitem key d = None ↔ key ∉ keys d.
Proof.
  rewrite <- dict_contains_keys, dict_contains_getitem.
  rewrite eq_None_not_Some. done.
Qed.

Lemma dict_getitem_Some_contains (key : string) (d : Roster) (a : Activity) :
  dict_getitem key d = Some a → dict_contains key d = true.
Proof. intros H. apply dict_contains_getitem. eauto. Qed.

Lemma dict_getitem_elem_of (key : string) (d : Roster) (a : Activity) :
  dict_getitem key d = Some a → (key, a) ∈ d.
Proof.
  induction d as [|[k b] d IH]; simpl; [done|].
  destruct (String.eqb_spec k key) as [->|Hne].
  - intros [= ->]. apply elem_of_cons; by left.
  - intros H. apply elem_of_cons; right; auto.
Qed.

Lemma keys_set_participants (key : string) (ps : list string) (d : Roster) :
  keys (set_participants key ps d) = keys d.
Proof.
  unfold keys. induction d as [|[k a] d IH]; simpl; [done|].
  destruct (String.eqb k key); simpl; [done|]. f_equal. exact IH.
Qed.

Lemma length_set_participants (key : string) (ps : list string) (d : Roster) :
  length (set_participants key ps d) = length d.
Proof.
  induction d as [|[k a] d IH]; simpl; [done|].
  destruct (String.eqb k key); simpl; [done|]. by rewrite IH.
Qed.

Lemma getitem_set_participants_eq (key : string) (ps : list string) (d : Roster)
    (a : Activity) :
  dict_getitem key d = Some a →
  dict_getitem key (set_participants key ps d)
  = Some (mkActivity (description a) (schedule a) (max_participants a) ps).
Proof.
  induction d as [|[k b] d IH]; simpl; [done|].
  destruct (String.eqb k key) eqn:E; simpl; rewrite E.
  - by intros [= ->].
  - done.
Qed.

Lemma getitem_set_participants_ne (key key' : string) (ps : list string)
    (d : Roster) :
  key' ≠ key →
  dict_getitem key' (set_participants key ps d) = dict_getitem key' d.
Proof.
  intros Hne. induction d as [|[k b] d IH]; simpl; [done|].
  destruct (String.eqb_spec k key) as [->|Hk]; simpl.
  - destruct (String.eqb_spec key key'); [congruence | done].
  - destruct (String.eqb k key'); done.
Qed.

Lemma set_participants_twice (key : string) (ps ps' : list string) (d : Roster) :
  set_participants key ps' (set_participants key ps d) = set_participants key ps' d.
Proof.
  induction d as [|[k b] d IH]; simpl; [done|].
  destruct (String.eqb k key) eqn:E; simpl; rewrite E; [done|]. by rewrite IH.
Qed.

Lemma set_participants_same (key : string) (d : Roster) (a : Activity) :
  dict_getitem key d = Some a → set_participants key (participants a) d = d.
Proof.
  induction d as [|[k b] d IH]; simpl; [done|].
  destruct (String.eqb k key).
  - intros [= ->]. by destruct a.
  - intros H. by rewrite IH.
Qed.

Lemma set_participants_absent (key : string) (ps : list string) (d : Roster) :
  dict_getitem key d = None → set_participants key ps d = d.
Proof.
  induction d as [|[k b] d IH]; simpl; [done|].
  destruct (String.eqb k key); [done|]. intros H. by rewrite IH.
Qed.

(** Where [set_participants] writes, position by position. *)
Lemma lookup_set_participants (key : string) (ps : list string) (d : Roster)
    (i : nat) (k : string) (a : Activity) :
  set_participants key ps d !! i = Some (k, a) →
  d !! i = Some (k, a)
  ∨ (k = key ∧ participants a = ps ∧ ∃ b, d !! i = Some (k, b)
     ∧ description a = description b ∧ schedule a = schedule b
     ∧ max_participants a = max_participants b).
Proof.
  revert i. induction d as [|[k0 b] d IH]; intros i; simpl; [done|].
  destruct (String.eqb_spec k0 key) as [->|Hk].
  - destruct i as [|i]; simpl; [|by left].
      intros [= <- <-]. right. simpl. eauto 10.
  - destruct i as [|i]; simpl; [by left | apply IH].
Qed.

Lemma list_remove_first_split (x : string) (l r : list string) :
  list_remove_first x l = Some r →
  ∃ l1 l2, l = l1 ++ (x :: l2) ∧ (x ∉ l1) ∧ r = l1 ++ l2.
Proof.
  revert r. induction l as [|y l IH]; intros r; simpl; [done|].
  destruct (String.eqb_spec y x) as [->|Hne].
  - intros [= <-]. exists [], l. split_and!; [done | apply not_elem_of_nil | done].
  - destruct (list_remove_first x l) as [r'|]; [|done].
    intros [= <-]. destruct (IH r' eq_refl) as (l1 & l2 & -> & Hnin & ->).
    exists (y :: l1), l2. split_and!; [done | | done].
    rewrite elem_of_cons. intuition congruence.
Qed.

Lemma list_remove_first_is_Some (x : string) (l : list string) :
  x ∈ l → is_Some (list_remove_first x l).
Proof.
  induction l as [|y l IH]; simpl; [by intros ?%elem_of_nil|].
  rewrite elem_of_cons. destruct (String.eqb_spec y x) as [->|Hne]; [eauto|].
  intros [?|Hin]; [congruence|]. destruct (IH Hin) as [r ->]. eauto.
Qed.

Lemma list_remove_first_None (x : string) (l : list string) :
  list_remove_first x l = None ↔ x ∉ l.
Proof.
  split.
  - intros HN Hin. destruct (list_remove_first_is_Some x l Hin) as [r Hr]. congruence.
  - intros Hnin. destruct (list_remove_first x l) as [r|] eqn:E; [|done].
    apply list_remove_first_split in E as (l1 & l2 & -> & _ & _).
    exfalso. apply Hnin. rewrite elem_of_app, elem_of_cons. auto.
Qed.

Lemma list_remove_first_append (x : string) (l : list string) :
  x ∉ l → list_remove_first x (list_append l x) = Some l.
Proof.
  unfold list_append. induction l as [|y l IH]; simpl.
  - by rewrite String.eqb_refl.
  - rewrite not_elem_of_cons. intros [Hne Hnin].
    destruct (String.eqb_spec y x) as [->|_]; [done|]. by rewrite IH.
Qed.

Lemma count_occ_append_fresh (x : string) (l : list string) :
  x ∉ l → count_occ String.string_dec (list_append l x) x = 1%nat.
Proof.
  intros Hnin. unfold list_append. rewrite count_occ_app. simpl.
  destruct (String.string_dec x x); [|done].
  assert (count_occ String.string_dec l x = 0%nat) as ->; [|done].
  apply count_occ_not_In. by rewrite <- list_elem_of_In.
Qed.

Lemma NoDup_list_append (x : string) (l : list string) :
  NoDup l → x ∉ l → NoDup (list_append l x).
Proof.
  intros Hl Hnin. unfold list_append. apply NoDup_app. split_and!; [done | | ].
  - intros y Hy ->%list_elem_of_singleton. done.
  - apply NoDup_singleton.
Qed.

Lemma NoDup_list_remove_first (x : string) (l r : list string) :
  NoDup l → list_remove_first x l = Some r → NoDup r ∧ x ∉ r.
Proof.
  intros Hl (l1 & l2 & -> & Hnin & ->)%list_remove_first_split.
  apply NoDup_app in Hl as (H1 & H12 & H2).
  apply NoDup_cons in H2 as [Hx H2]. split.
  - apply NoDup_app. split_and!; [done | | done].
    intros y Hy Hy2. apply (H12 y Hy). apply elem_of_cons. by right.
  - rewrite elem_of_app. intuition congruence.
Qed.

Lemma no_duplicates_set_participants (key : string) (ps : list string) (d : Roster) :
  no_duplicates d → NoDup ps → no_duplicates (set_participants key ps d).
Proof.
  unfold no_duplicates. intros Hd Hps.
  induction Hd as [|[k a] d Ha Hd IH]; simpl; [constructor|].
  destruct (String.eqb k key); constructor; done.
Qed.

Lemma no_duplicates_getitem (key : string) (d : Roster) (a : Activity) :
  no_duplicates d → dict_getitem key d = Some a → NoDup (participants a).
Proof.
  unfold no_duplicates. rewrite Forall_forall.
  intros Hd Hget%dict_getitem_elem_of. apply (Hd _ Hget).
Qed.

(** ** The three outcomes of each mutating handler *)

Section Outcomes.
Variables (s : Roster) (activity_name email : string).

Lemma signup_absent :
  dict_getitem activity_name s = None →
  signup_for_activity activity_name email s = (s, inl NotFound).
Proof.
  intros Hget. unfold_handler.
  destruct (dict_contains activity_name s) eqn:E; [|done].
  apply dict_contains_getitem in E as [a Ha]. congruence.
Qed.

Lemma unregister_absent :
  dict_getitem activity_name s = None →
  unregister_from_activity activity_name email s = (s, inl NotFound).
Proof.
  intros Hget. unfold_handler.
  destruct (dict_contains activity_name s) eqn:E; [|done].
  apply dict_contains_getitem in E as [a Ha]. congruence.
Qed.

Variable activity : Activity.
Hypothesis Hget : dict_getitem activity_name s = Some activity.

Lemma signup_registered :
  email ∈ participants activity →
  signup_for_activity activity_name email s = (s, inl AlreadyRegistered).
Proof.
  intros Hin%list_contains_true. unfold_handler.
  rewrite (dict_getitem_Some_contains _ _ _ Hget). simpl.
  rewrite Hget, Hin. done.
Qed.

Lemma signup_fresh :
  email ∉ participants activity →
  signup_for_activity activity_name email s
  = (set_participants activity_name (list_append (participants activity) email) s,
     inr (mkMessage ("Signed up " +:+ email +:+ " for " +:+ activity_name))).
Proof.
  intros Hin%list_contains_false. unfold_handler.
  rewrite (dict_getitem_Some_contains _ _ _ Hget). simpl.
  rewrite Hget, Hin. done.
Qed.

Lemma unregister_unregistered :
  email ∉ participants activity →
  unregister_from_activity activity_name email s = (s, inl NotRegistered).
Proof.
  intros Hin%list_contains_false. unfold_handler.
  rewrite (dict_getitem_Some_contains _ _ _ Hget). simpl.
  rewrite Hget, Hin. done.
Qed.

Lemma unregister_registered :
  email ∈ participants activity →
  ∃ ps, list_remove_first email (participants activity) = Some ps
    ∧ unregister_from_activity activity_name email s
      = (set_participants activity_name ps s,
         inr (mkMessage ("Unregistered " +:+ email +:+ " from " +:+ activity_name))).
Proof.
  intros Hin. destruct (list_remove_first_is_Some _ _ Hin) as [ps Hps].
  exists ps. split; [done|].
  apply list_contains_true in Hin. unfold_handler.
  rewrite (dict_getitem_Some_contains _ _ _ Hget). simpl.
  rewrite Hget, Hin. simpl. rewrite Hps. done.
Qed.
End Outcomes.

(** Every run of a mutating handler falls in one of its three outcomes. *)
Lemma signup_cases (s : Roster) (activity_name email : string) :
  (dict_getitem activity_name s = None
   ∧ signup_for_activity activity_name email s = (s, inl NotFound))
  ∨ (∃ a, dict_getitem activity_name s = Some a ∧ email ∈ participants a
     ∧ signup_for_activity activity_name email s = (s, inl AlreadyRegistered))
  ∨ (∃ a, dict_getitem activity_name s = Some a ∧ (email ∉ participants a)
     ∧ signup_for_activity activity_name email s
       = (set_participants activity_name (list_append (participants a) email) s,
          inr (mkMessage ("Signed up " +:+ email +:+ " for " +:+ activity_name)))).
Proof.
  destruct (dict_getitem activity_name s) as [a|] eqn:Hget.
  - right. destruct (list_contains email (participants a)) eqn:E.
    + left. apply list_contains_true in E. eauto using signup_registered.
    + right. apply list_contains_false in E. eauto using signup_fresh.
  - left. eauto using signup_absent.
Qed.

Lemma unregister_cases (s : Roster) (activity_name email : string) :
  (dict_getitem activity_name s = None
   ∧ unregister_from_activity activity_name email s = (s, inl NotFound))
  ∨ (∃ a, dict_getitem activity_name s = Some a ∧ (email ∉ participants a)
     ∧ unregister_from_activity activity_name email s = (s, inl NotRegistered))
  ∨ (∃ a ps, dict_getitem activity_name s = Some a ∧ email ∈ participants a
     ∧ list_remove_first email (participants a) = Some ps
     ∧ unregister_from_activity activity_name email s
       = (set_participants activity_name ps s,
          inr (mkMessage ("Unregistered " +:+ email +:+ " from " +:+ activity_name)))).
Proof.
  destruct (dict_getitem activity_name s) as [a|] eqn:Hget.
  - right. destruct (list_contains email (participants a)) eqn:E.
    + right. apply list_contains_true in E.
      destruct (unregister_registered _ _ _ _ Hget E) as (ps & ? & ?). eauto 10.
    + left. apply list_contains_false in E. eauto using unregister_unregistered.
  - left. eauto using unregister_absent.
Qed.

(** ** Sign up *)

(** C1: for every store, every activity name in it and every email that is
    not among that activity's participants, [signup_for_activity] returns
    the message "Signed up {email} for {name}" and leaves a store in which
    the activity's participants are the old ones followed by the email: the
    email is the last entry, occurs exactly once, and every earlier
    participant keeps its position. *)
Theorem signup_appends (s : Roster) (activity_name email : string) (a : Activity) :
  dict_getitem activity_name s = Some a →
  email ∉ participants a →
  ∃ s' a',
    signup_for_activity activity_name email s
    = (s', inr (mkMessage ("Signed up " +:+ email +:+ " for " +:+ activity_name)))
    ∧ dict_getitem activity_name s' = Some a'
    ∧ participants a' = participants a ++ [email]
    ∧ count_occ String.string_dec (participants a') email = 1%nat
    ∧ last (participants a') = Some email
    ∧ ∀ i x, participants a !! i = Some x → participants a' !! i = Some x.
Proof.
  intros Hget Hnin. eexists _, _.
  split; [apply (signup_fresh _ _ _ _ Hget Hnin)|].
  split; [apply (getitem_set_participants_eq _ _ _ _ Hget)|]. simpl.
  split_and!.
  - done.
  - by apply count_occ_append_fresh.
  - unfold list_append. apply last_snoc.
  - intros i x Hi. unfold list_append. by apply lookup_app_l_Some.
Qed.

Lemma signup_appends_witness :
  dict_getitem "Math Club" integrity_test_activities
  = Some (mkActivity "Mathematics activities" "Mondays 3-4 PM" 2
            ["alice@mergington.edu"])
  ∧ ("bob@mergington.edu" ∉ ["alice@mergington.edu"])
  ∧ ∃ s' a',
      signup_for_activity "Math Club" "bob@mergington.edu" integrity_test_activities
      = (s', inr (mkMessage "Signed up bob@mergington.edu for Math Club"))
      ∧ dict_getitem "Math Club" s' = Some a'
      ∧ participants a' = ["alice@mergington.edu"; "bob@mergington.edu"].
Proof.
  assert (H1 : dict_getitem "Math Club" integrity_test_activities
               = Some (mkActivity "Mathematics activities" "Mondays 3-4 PM" 2
                         ["alice@mergington.edu"])) by reflexivity.
  assert (H2 : "bob@mergington.edu" ∉ ["alice@mergington.edu"])
    by (apply list_contains_false; reflexivity).
  split; [exact H1|]. split; [exact H2|].
  destruct (signup_appends _ _ _ _ H1 H2) as (s' & a' & E & G & P & _).
  exists s', a'. repeat split; assumption.
Defined.

(** C2: [signup_for_activity] raises the 404 "Activity not found" exactly
    when the name is not a key of the store, raises the 400 "Student is
    already signed up" exactly when the name is a key and the email is among
    that activity's participants, returns normally exactly when the name is
    a key and the email is not among them, and raises nothing else. *)
Theorem signup_fails_iff (s : Roster) (activity_name email : string) :
  ((signup_for_activity activity_name email s).2
   = inl (HTTPException 404 "Activity not found")
   ↔ activity_name ∉ keys s)
  ∧ ((signup_for_activity activity_name email s).2
     = inl (HTTPException 400 "Student is already signed up")
     ↔ ∃ a, dict_getitem activity_name s = Some a ∧ email ∈ participants a)
  ∧ ((∃ m, (signup_for_activity activity_name email s).2 = inr m)
     ↔ ∃ a, dict_getitem activity_name s = Some a ∧ (email ∉ participants a))
  ∧ (∀ e, (signup_for_activity activity_name email s).2 = inl e →
          e = HTTPException 404 "Activity not found"
          ∨ e = HTTPException 400 "Student is already signed up").
Proof.
  rewrite <- dict_getitem_None.
  destruct (signup_cases s activity_name email)
    as [[Hg ->]|[(a & Hg & Hin & ->)|(a & Hg & Hnin & ->)]]; simpl; rewrite Hg.
  - split_and!.
    + done.
    + split; [discriminate | by intros (? & [=] & _)].
    + split; [by intros [? [=]] | by intros (? & [=] & _)].
    + intros e [= <-]. by left.
  - split_and!.
    + split; discriminate.
    + split; [eauto | done].
    + split; [by intros [? [=]] | by intros (? & [= <-] & ?)].
    + intros e [= <-]. by right.
  - split_and!.
    + split; discriminate.
    + split; [discriminate | by intros (? & [= <-] & ?)].
    + split; eauto.
    + discriminate.
Qed.

(** ** Unregister *)

(** C3: when the name is a key of the store and the email is among the
    activity's participants, [unregister_from_activity] returns the message
    "Unregistered {email} from {name}" and leaves the participants with the
    first occurrence of the email cut out and the rest in their order; when
    the name is not a key it raises the 404 "Activity not found"; when the
    name is a key and the email is not among the participants it raises the
    400 "Student is not signed up for this activity". *)
Theorem unregister_removes (s : Roster) (activity_name email : string) :
  (∀ a, dict_getitem activity_name s = Some a → email ∈ participants a →
     ∃ s' a' l1 l2,
       unregister_from_activity activity_name email s
       = (s', inr (mkMessage ("Unregistered " +:+ email +:+ " from " +:+ activity_name)))
       ∧ participants a = l1 ++ (email :: l2)
       ∧ (email ∉ l1)
       ∧ dict_getitem activity_name s' = Some a'
       ∧ participants a' = l1 ++ l2)
  ∧ (activity_name ∉ keys s →
     unregister_from_activity activity_name email s
     = (s, inl (HTTPException 404 "Activity not found")))
  ∧ (∀ a, dict_getitem activity_name s = Some a → email ∉ participants a →
     unregister_from_activity activity_name email s
     = (s, inl (HTTPException 400 "Student is not signed up for this activity"))).
Proof.
  split_and!.
  - intros a Hget Hin.
    destruct (unregister_registered _ _ _ _ Hget Hin) as (ps & Hps & ->).
    apply list_remove_first_split in Hps as (l1 & l2 & Hl & Hnin & ->).
    eexists _, _, l1, l2.
    split; [reflexivity|]. split; [exact Hl|]. split; [exact Hnin|].
    split; [apply (getitem_set_participants_eq _ _ _ _ Hget) | reflexivity].
  - intros Habs%dict_getitem_None. by apply unregister_absent.
  - intros a Hget Hnin. by eapply unregister_unregistered.
Qed.

Lemma unregister_removes_witness :
  (∃ s' a',
     unregister_from_activity "Test Activity" "student1@mergington.edu"
       unregister_test_activities
     = (s', inr (mkMessage "Unregistered student1@mergington.edu from Test Activity"))
     ∧ dict_getitem "Test Activity" s' = Some a'
     ∧ participants a' = ["student2@mergington.edu"])
  ∧ unregister_from_activity "Nonexistent Activity" "student@mergington.edu"
      unregister_test_activities
    = (unregister_test_activities, inl (HTTPException 404 "Activity not found"))
  ∧ unregister_from_activity "Empty Activity" "notregistered@mergington.edu"
      unregister_test_activities
    = (unregister_test_activities,
       inl (HTTPException 400 "Student is not signed up for this activity")).
Proof.
  split_and!.
  - assert (Hin : "student1@mergington.edu"
                  ∈ ["student1@mergington.edu"; "student2@mergington.edu"])
      by (apply list_contains_true; reflexivity).
    destruct (proj1 (unregister_removes unregister_test_activities
                       "Test Activity" "student1@mergington.edu") _ eq_refl Hin)
      as (s' & a' & l1 & l2 & E & _ & _ & G & P).
    exists s', a'. rewrite E in *. split; [reflexivity|]. vm_compute in E.
    injection E as <-. vm_compute in G. injection G as <-. split; reflexivity.
  - apply (proj1 (proj2 (unregister_removes unregister_test_activities
                           "Nonexistent Activity" "student@mergington.edu"))).
    apply dict_getitem_None. reflexivity.
  - apply (proj2 (proj2 (unregister_removes unregister_test_activities
                           "Empty Activity" "notregistered@mergington.edu"))
             (mkActivity "An empty test activity" "Test schedule" 2 []) eq_refl).
    apply list_contains_false. reflexivity.
Defined.

(** ** Capacity *)

(** C4: [max_participants] plays no part in a signup.  For an activity of
    the store that is already at or over its capacity and an email not among
    its participants, [signup_for_activity] still returns normally and
    appends the email, so that the count exceeds the capacity; and the only
    exceptions a signup raises are the 404 "Activity not found" and the 400
    "Student is already signed up". *)
Theorem signup_ignores_capacity :
  (∀ (s : Roster) (activity_name email : string) (a : Activity),
     dict_getitem activity_name s = Some a →
     email ∉ participants a →
     max_participants a ≤ Z.of_nat (length (participants a)) →
     ∃ s' a',
       signup_for_activity activity_name email s
       = (s', inr (mkMessage ("Signed up " +:+ email +:+ " for " +:+ activity_name)))
       ∧ dict_getitem activity_name s' = Some a'
       ∧ participants a' = participants a ++ [email]
       ∧ max_participants a' = max_participants a
       ∧ max_participants a' < Z.of_nat (length (participants a')))
  ∧ (∀ (s : Roster) (activity_name email : string) (e : exn),
       (signup_for_activity activity_name email s).2 = inl e →
       e = NotFound ∨ e = AlreadyRegistered).
Proof.
  split.
  - intros s activity_name email a Hget Hnin Hfull. eexists _, _.
    split; [apply (signup_fresh _ _ _ _ Hget Hnin)|].
    split; [apply (getitem_set_participants_eq _ _ _ _ Hget)|]. simpl.
    split_and!; [done | done |].
    unfold list_append. rewrite length_app. simpl. lia.
  - intros s activity_name email e.
    destruct (signup_cases s activity_name email)
      as [[_ ->]|[(a & _ & _ & ->)|(a & _ & _ & ->)]]; simpl.
    + intros [= <-]. by left.
    + intros [= <-]. by right.
    + discriminate.
Qed.

Lemma signup_ignores_capacity_witness :
  ∃ s' a',
    signup_for_activity "Full Activity" "newstudent@mergington.edu"
      signup_test_activities
    = (s', inr (mkMessage "Signed up newstudent@mergington.edu for Full Activity"))
    ∧ dict_getitem "Full Activity" s' = Some a'
    ∧ participants a' = ["full@mergington.edu"; "newstudent@mergington.edu"]
    ∧ max_participants a' = 1.
Proof.
  assert (Hnin : "newstudent@mergington.edu" ∉ ["full@mergington.edu"])
    by (apply list_contains_false; reflexivity).
  assert (Hfull : 1 ≤ Z.of_nat (length ["full@mergington.edu"])) by (simpl; lia).
  destruct (proj1 signup_ignores_capacity signup_test_activities "Full Activity"
              "newstudent@mergington.edu"
              (mkActivity "A full test activity" "Test schedule" 1
                 ["full@mergington.edu"]) eq_refl Hnin Hfull)
    as (s' & a' & E & G & P & Hm & _).
  exists s', a'. repeat split; assumption.
Defined.

(** ** Sign up, then unregister *)

(** C5: for an activity of the store and an email not among its
    participants, a signup of the email returns normally, the unregister of
    the same email from the same activity that follows returns normally too,
    and the store after the two calls is the store before them (so the
    activity's participants are as they were). *)
Theorem signup_unregister_roundtrip (s : Roster) (activity_name email : string)
    (a : Activity) :
  dict_getitem activity_name s = Some a →
  email ∉ participants a →
  ∃ s1 m1 m2,
    signup_for_activity activity_name email s = (s1, inr m1)
    ∧ unregister_from_activity activity_name email s1 = (s, inr m2)
    ∧ dict_getitem activity_name (unregister_from_activity activity_name email s1).1
      = Some a.
Proof.
  intros Hget Hnin.
  pose proof (signup_fresh _ _ _ _ Hget Hnin) as Hs.
  pose proof (getitem_set_participants_eq _ (list_append (participants a) email)
                _ _ Hget) as Hget1.
  assert (Hin : email ∈ list_append (participants a) email).
  { unfold list_append. rewrite elem_of_app, list_elem_of_singleton. by right. }
  destruct (unregister_registered _ _ email _ Hget1 Hin) as (ps & Hps & Hu).
  simpl in Hps. rewrite (list_remove_first_append _ _ Hnin) in Hps.
  injection Hps as <-.
  rewrite set_participants_twice, (set_participants_same _ _ _ Hget) in Hu.
  eexists _, _, _. split; [exact Hs|]. rewrite Hu. by split.
Qed.

Lemma signup_unregister_roundtrip_witness :
  ∃ s1 m1 m2,
    signup_for_activity "Math Club" "workflow@mergington.edu" integrity_test_activities
    = (s1, inr m1)
    ∧ unregister_from_activity "Math Club" "workflow@mergington.edu" s1
      = (integrity_test_activities, inr m2).
Proof.
  assert (Hnin : "workflow@mergington.edu" ∉ ["alice@mergington.edu"])
    by (apply list_contains_false; reflexivity).
  destruct (signup_unregister_roundtrip integrity_test_activities "Math Club"
              "workflow@mergington.edu"
              (mkActivity "Mathematics activities" "Mondays 3-4 PM" 2
                 ["alice@mergington.edu"]) eq_refl Hnin)
    as (s1 & m1 & m2 & E1 & E2 & _).
  exists s1, m1, m2. split; assumption.
Defined.

(** ** Failed calls *)

(** C6: whenever [signup_for_activity] or [unregister_from_activity] raises,
    the store it leaves is the store it was given; and a signup of an email
    already among the activity's participants raises the 400 "Student is
    already signed up" and leaves the store as it was. *)
Theorem errors_leave_roster_unchanged (s : Roster) (activity_name email : string) :
  (∀ e, (signup_for_activity activity_name email s).2 = inl e →
        (signup_for_activity activity_name email s).1 = s)
  ∧ (∀ e, (unregister_from_activity activity_name email s).2 = inl e →
          (unregister_from_activity activity_name email s).1 = s)
  ∧ (∀ a, dict_getitem activity_name s = Some a → email ∈ participants a →
          signup_for_activity activity_name email s
          = (s, inl (HTTPException 400 "Student is already signed up"))).
Proof.
  split_and!.
  - intros e.
    destruct (signup_cases s activity_name email)
      as [[_ ->]|[(a & _ & _ & ->)|(a & _ & _ & ->)]]; simpl; done.
  - intros e.
    destruct (unregister_cases s activity_name email)
      as [[_ ->]|[(a & _ & _ & ->)|(a & ps & _ & _ & _ & ->)]]; simpl; done.
  - intros a Hget Hin. by eapply signup_registered.
Qed.

Lemma errors_leave_roster_unchanged_witness :
  (signup_for_activity "Test Activity" "existing@mergington.edu"
     signup_test_activities).1 = signup_test_activities
  ∧ (unregister_from_activity "Empty Activity" "notregistered@mergington.edu"
       unregister_test_activities).1 = unregister_test_activities
  ∧ signup_for_activity "Test Activity" "existing@mergington.edu"
      signup_test_activities
    = (signup_test_activities,
       inl (HTTPException 400 "Student is already signed up")).
Proof.
  split_and!.
  - apply (proj1 (errors_leave_roster_unchanged signup_test_activities
                    "Test Activity" "existing@mergington.edu") AlreadyRegistered).
    reflexivity.
  - apply (proj1 (proj2 (errors_leave_roster_unchanged unregister_test_activities
                           "Empty Activity" "notregistered@mergington.edu"))
             NotRegistered).
    reflexivity.
  - apply (proj2 (proj2 (errors_leave_roster_unchanged signup_test_activities
                           "Test Activity" "existing@mergington.edu"))
             (mkActivity "A test activity" "Test schedule" 2
                ["existing@mergington.edu"]) eq_refl).
    apply list_contains_true. reflexivity.
Defined.

(** ** Runs of the service *)

Lemma handle_store (rq : request) (s : Roster) :
  (handle rq s).1
  = match rq with
    | GetRoot | GetActivities => s
    | PostSignup n e => (signup_for_activity n e s).1
    | DeleteUnregister n e => (unregister_from_activity n e s).1
    end.
Proof.
  destruct rq as [| |n e|n e]; unfold handle; try done.
  - unfold mbind, M_bind at 1.
    by destruct (signup_for_activity n e s) as [s' [x|m]].
  - unfold mbind, M_bind at 1.
    by destruct (unregister_from_activity n e s) as [s' [x|m]].
Qed.

Lemma signup_no_duplicates (s : Roster) (activity_name email : string) :
  no_duplicates s → no_duplicates (signup_for_activity activity_name email s).1.
Proof.
  intros Hs.
  destruct (signup_cases s activity_name email)
    as [[_ ->]|[(a & _ & _ & ->)|(a & Hget & Hnin & ->)]]; simpl; try done.
  apply no_duplicates_set_participants; [done|].
  apply NoDup_list_append; [|done]. by eapply no_duplicates_getitem.
Qed.

Lemma unregister_no_duplicates (s : Roster) (activity_name email : string) :
  no_duplicates s → no_duplicates (unregister_from_activity activity_name email s).1.
Proof.
  intros Hs.
  destruct (unregister_cases s activity_name email)
    as [[_ ->]|[(a & _ & _ & ->)|(a & ps & Hget & _ & Hps & ->)]]; simpl; try done.
  apply no_duplicates_set_participants; [done|].
  eapply NoDup_list_remove_first; [|exact Hps]. by eapply no_duplicates_getitem.
Qed.

Lemma handle_no_duplicates (rq : request) (s : Roster) :
  no_duplicates s → no_duplicates (handle rq s).1.
Proof.
  intros Hs. rewrite handle_store. destruct rq; try done.
  - by apply signup_no_duplicates.
  - by apply unregister_no_duplicates.
Qed.

Lemma activities_no_duplicates : no_duplicates activities.
Proof.
  unfold no_duplicates, activities.
  repeat (apply Forall_cons; split;
          [simpl; repeat (apply NoDup_cons; split;
                          [apply list_contains_false; reflexivity|]);
           apply NoDup_nil_2|]).
  apply Forall_nil_2.
Qed.

(** C7: no participant list of the seeded store lists an email twice, and
    from any store of which that is true, it is true again after every
    sequence of requests to the four routes (signups and unregisters
    included, whether they return or raise). *)
Theorem no_duplicates_invariant :
  no_duplicates activities
  ∧ ∀ (rqs : list request) (s : Roster), no_duplicates s → no_duplicates (run rqs s).
Proof.
  split; [exact activities_no_duplicates|].
  induction rqs as [|rq rqs IH]; intros s Hs; simpl; [done|].
  apply IH. by apply handle_no_duplicates.
Qed.

Lemma no_duplicates_invariant_witness :
  no_duplicates
    (run [PostSignup "Chess Club" "amy@mergington.edu";
          PostSignup "Chess Club" "amy@mergington.edu";
          DeleteUnregister "Chess Club" "michael@mergington.edu";
          GetActivities;
          PostSignup "Chess Club" "michael@mergington.edu"] activities)
  ∧ dict_getitem "Chess Club"
      (run [PostSignup "Chess Club" "amy@mergington.edu";
            PostSignup "Chess Club" "amy@mergington.edu";
            DeleteUnregister "Chess Club" "michael@mergington.edu";
            GetActivities;
            PostSignup "Chess Club" "michael@mergington.edu"] activities)
    = Some (mkActivity "Learn strategies and compete in chess tournaments"
              "Fridays, 3:30 PM - 5:00 PM" 12
              ["daniel@mergington.edu"; "amy@mergington.edu";
               "michael@mergington.edu"]).
Proof.
  split; [|reflexivity].
  apply (proj2 no_duplicates_invariant). exact (proj1 no_duplicates_invariant).
Defined.

(** ** Reading the store *)

(** C8: [get_activities] never raises; it returns the store it was given, as
    it is: the same keys in the same order, and under every key of the
    store the activity stored there, with its description, schedule,
    max_participants and participants. *)
Theorem get_activities_returns_roster (s : Roster) :
  ∃ r,
    get_activities s = (s, inr r)
    ∧ r = s
    ∧ keys r = keys s
    ∧ ∀ (activity_name : string) (a : Activity),
        dict_getitem activity_name s = Some a →
        ∃ a', dict_getitem activity_name r = Some a'
          ∧ description a' = description a
          ∧ schedule a' = schedule a
          ∧ max_participants a' = max_participants a
          ∧ participants a' = participants a.
Proof.
  exists s. split_and!; try done. intros n a Hget. exists a. by rewrite Hget.
Qed.

Example get_activities_seeded :
  ∃ r, get_activities activities = (activities, inr r)
    ∧ keys r = ["Chess Club"; "Programming Class"; "Gym Class"; "Soccer Team";
                "Basketball Club"; "Art Club"; "Drama Club"; "Debate Team";
                "Science Olympiad"]
    ∧ dict_getitem "Drama Club" r
      = Some (mkActivity "Acting workshops and stage productions"
                "Wednesdays, 4:00 PM - 6:00 PM" 25
                ["ashley@mergington.edu"; "ben@mergington.edu"]).
Proof. exists activities. by split_and!. Qed.

(** C10: [root] and [get_activities] return normally and leave the store as
    it was given, and so does every sequence of requests to these two
    routes. *)
Theorem reads_leave_roster_unchanged (s : Roster) :
  root s = (s, inr (mkRedirectResponse "/static/index.html" 307))
  ∧ get_activities s = (s, inr s)
  ∧ ∀ rqs : list request, Forall (λ rq, is_read rq = true) rqs → run rqs s = s.
Proof.
  split_and!; [done | done |].
  intros rqs Hread. induction Hread as [|rq rqs Hrq _ IH]; simpl; [done|].
  rewrite handle_store. by destruct rq.
Qed.

Lemma reads_leave_roster_unchanged_witness :
  run [GetRoot; GetActivities; GetActivities; GetRoot] activities = activities.
Proof.
  apply (proj2 (proj2 (reads_leave_roster_unchanged activities))).
  repeat (apply Forall_cons; split; [reflexivity|]). apply Forall_nil_2.
Defined.

(** ** What a mutation leaves alone *)

Lemma set_participants_frame (key : string) (ps : list string) (s : Roster)
    (a : Activity) :
  dict_getitem key s = Some a →
  keys (set_participants key ps s) = keys s
  ∧ length (set_participants key ps s) = length s
  ∧ (∃ a', dict_getitem key (set_participants key ps s) = Some a'
       ∧ description a' = description a
       ∧ schedule a' = schedule a
       ∧ max_participants a' = max_participants a)
  ∧ (∀ key', key' ≠ key →
       dict_getitem key' (set_participants key ps s) = dict_getitem key' s)
  ∧ (∀ (i : nat) (k : string) (b' : Activity),
       set_participants key ps s !! i = Some (k, b') →
       ∃ b, s !! i = Some (k, b)
         ∧ description b' = description b
         ∧ schedule b' = schedule b
         ∧ max_participants b' = max_participants b
         ∧ (k ≠ key → b' = b)).
Proof.
  intros Hget. split_and!.
  - apply keys_set_participants.
  - apply length_set_participants.
  - eexists. split; [apply (getitem_set_participants_eq _ _ _ _ Hget)|]. done.
  - intros key' Hne. by apply getitem_set_participants_ne.
  - intros i k b' [Hi|(-> & _ & b & Hi & ? & ? & ?)]%lookup_set_participants.
    + exists b'. done.
    + exists b. split_and!; try done.
Qed.

(** C9: a signup or an unregister that returns normally for activity name A
    leaves the keys of the store and their order as they were, leaves the
    description, schedule and max_participants of A as they were, and leaves
    every other activity as it was, whether it is looked up by name or by
    its position in the store. *)
Theorem mutations_frame (s s' : Roster) (activity_name email : string) (m : Message) :
  signup_for_activity activity_name email s = (s', inr m)
  ∨ unregister_from_activity activity_name email s = (s', inr m) →
  keys s' = keys s
  ∧ length s' = length s
  ∧ (∃ a a', dict_getitem activity_name s = Some a
       ∧ dict_getitem activity_name s' = Some a'
       ∧ description a' = description a
       ∧ schedule a' = schedule a
       ∧ max_participants a' = max_participants a)
  ∧ (∀ other, other ≠ activity_name → dict_getitem other s' = dict_getitem other s)
  ∧ (∀ (i : nat) (k : string) (b' : Activity),
       s' !! i = Some (k, b') →
       ∃ b, s !! i = Some (k, b)
         ∧ description b' = description b
         ∧ schedule b' = schedule b
         ∧ max_participants b' = max_participants b
         ∧ (k ≠ activity_name → b' = b)).
Proof.
  intros [Hrun|Hrun].
  - destruct (signup_cases s activity_name email)
      as [[_ E]|[(a & _ & _ & E)|(a & Hget & _ & E)]];
      rewrite E in Hrun; try discriminate.
    injection Hrun as <- _.
    destruct (set_participants_frame activity_name
                (list_append (participants a) email) s a Hget)
      as (Hk & Hl & (a' & ? & ? & ? & ?) & Ho & Hp).
    split_and!; eauto 10.
  - destruct (unregister_cases s activity_name email)
      as [[_ E]|[(a & _ & _ & E)|(a & ps & Hget & _ & _ & E)]];
      rewrite E in Hrun; try discriminate.
    injection Hrun as <- _.
    destruct (set_participants_frame activity_name ps s a Hget)
      as (Hk & Hl & (a' & ? & ? & ? & ?) & Ho & Hp).
    split_and!; eauto 10.
Qed.

Lemma mutations_frame_witness :
  unregister_from_activity "Test Activity" "student1@mergington.edu"
    unregister_test_activities
  = ([("Test Activity",
       mkActivity "A test activity" "Test schedule" 3 ["student2@mergington.edu"]);
      ("Empty Activity",
       mkActivity "An empty test activity" "Test schedule" 2 [])],
     inr (mkMessage "Unregistered student1@mergington.edu from Test Activity"))
  ∧ keys [("Test Activity",
           mkActivity "A test activity" "Test schedule" 3 ["student2@mergington.edu"]);
          ("Empty Activity",
           mkActivity "An empty test activity" "Test schedule" 2 [])]
    = keys unregister_test_activities
  ∧ dict_getitem "Empty Activity"
      [("Test Activity",
        mkActivity "A test activity" "Test schedule" 3 ["student2@mergington.edu"]);
       ("Empty Activity",
        mkActivity "An empty test activity" "Test schedule" 2 [])]
    = dict_getitem "Empty Activity" unregister_test_activities.
Proof.
  assert (Hrun : unregister_from_activity "Test Activity" "student1@mergington.edu"
                   unregister_test_activities
                 = ([("Test Activity",
                      mkActivity "A test activity" "Test schedule" 3
                        ["student2@mergington.edu"]);
                     ("Empty Activity",
                      mkActivity "An empty test activity" "Test schedule" 2 [])],
                    inr (mkMessage
                           "Unregistered student1@mergington.edu from Test Activity")))
    by reflexivity.
  destruct (mutations_frame _ _ _ _ _ (or_intror Hrun)) as (Hk & _ & _ & Ho & _).
  split; [exact Hrun|]. split; [exact Hk|]. apply Ho. discriminate.
Defined.

(** ** Further properties of the handlers *)

(** Each mutating handler, evaluated on what [activities[activity_name]]
    holds. *)
Lemma signup_eval (s : Roster) (activity_name email : string) :
  signup_for_activity activity_name email s
  = match dict_getitem activity_name s with
    | None => (s, inl NotFound)
    | Some a =>
        if list_contains email (participants a) then (s, inl AlreadyRegistered)
        else (set_participants activity_name (list_append (participants a) email) s,
              inr (mkMessage ("Signed up " +:+ email +:+ " for " +:+ activity_name)))
    end.
Proof.
  destruct (signup_cases s activity_name email)
    as [[Hg ->]|[(a & Hg & Hin & ->)|(a & Hg & Hnin & ->)]]; rewrite Hg; [done| |].
  - apply list_contains_true in Hin. by rewrite Hin.
  - apply list_contains_false in Hnin. by rewrite Hnin.
Qed.

Lemma unregister_eval (s : Roster) (activity_name email : string) :
  unregister_from_activity activity_name email s
  = match dict_getitem activity_name s with
    | None => (s, inl NotFound)
    | Some a =>
        match list_remove_first email (participants a) with
        | None => (s, inl NotRegistered)
        | Some ps =>
            (set_participants activity_name ps s,
             inr (mkMessage ("Unregistered " +:+ email +:+ " from " +:+ activity_name)))
        end
    end.
Proof.
  destruct (unregister_cases s activity_name email)
    as [[Hg ->]|[(a & Hg & Hnin & ->)|(a & ps & Hg & _ & Hps & ->)]]; rewrite Hg;
    [done| |].
  - apply list_remove_first_None in Hnin. by rewrite Hnin.
  - by rewrite Hps.
Qed.

(** X1: [unregister_from_activity] raises the 404 "Activity not found"
    exactly when the name is not a key of the store, raises the 400 "Student
    is not signed up for this activity" exactly when the name is a key and
    the email is not among that activity's participants, returns normally
    exactly when the name is a key and the email is among them, and raises
    nothing else: the [ValueError] of [list.remove] cannot occur. *)
Theorem unregister_fails_iff (s : Roster) (activity_name email : string) :
  ((unregister_from_activity activity_name email s).2
   = inl (HTTPException 404 "Activity not found")
   ↔ activity_name ∉ keys s)
  ∧ ((unregister_from_activity activity_name email s).2
     = inl (HTTPException 400 "Student is not signed up for this activity")
     ↔ ∃ a, dict_getitem activity_name s = Some a ∧ (email ∉ participants a))
  ∧ ((∃ m, (unregister_from_activity activity_name email s).2 = inr m)
     ↔ ∃ a, dict_getitem activity_name s = Some a ∧ email ∈ participants a)
  ∧ (∀ e, (unregister_from_activity activity_name email s).2 = inl e →
          e = HTTPException 404 "Activity not found"
          ∨ e = HTTPException 400 "Student is not signed up for this activity").
Proof.
  rewrite <- dict_getitem_None.
  destruct (unregister_cases s activity_name email)
    as [[Hg ->]|[(a & Hg & Hnin & ->)|(a & ps & Hg & Hin & _ & ->)]];
    simpl; rewrite Hg.
  - split_and!.
    + done.
    + split; [discriminate | by intros (? & [=] & _)].
    + split; [by intros [? [=]] | by intros (? & [=] & _)].
    + intros e [= <-]. by left.
  - split_and!.
    + split; discriminate.
    + split; [eauto | done].
    + split; [by intros [? [=]] | by intros (? & [= <-] & ?)].
    + intros e [= <-]. by right.
  - split_and!.
    + split; discriminate.
    + split; [discriminate | by intros (? & [= <-] & ?)].
    + split; eauto.
    + discriminate.
Qed.

Lemma handle_result (rq : request) (s : Roster) :
  (handle rq s).2
  = match rq with
    | GetRoot => inr (Redirect (mkRedirectResponse "/static/index.html" 307))
    | GetActivities => inr (ActivitiesJson s)
    | PostSignup n e =>
        match (signup_for_activity n e s).2 with
        | inl x => inl x
        | inr m => inr (MessageJson m)
        end
    | DeleteUnregister n e =>
        match (unregister_from_activity n e s).2 with
        | inl x => inl x
        | inr m => inr (MessageJson m)
        end
    end.
Proof.
  destruct rq as [| |n e|n e]; unfold handle; try done.
  - unfold mbind, M_bind at 1.
    by destruct (signup_for_activity n e s) as [s' [x|m]].
  - unfold mbind, M_bind at 1.
    by destruct (unregister_from_activity n e s) as [s' [x|m]].
Qed.

(** X2: whatever the store and the request, a handler that raises raises one
    of the three HTTP errors of the service (404 "Activity not found", 400
    "Student is already signed up", 400 "Student is not signed up for this
    activity"), never a [KeyError] or a [ValueError]; and the two reading
    routes never raise. *)
Theorem handle_raises_only_http (rq : request) (s : Roster) :
  (∀ e, (handle rq s).2 = inl e →
        e = HTTPException 404 "Activity not found"
        ∨ e = HTTPException 400 "Student is already signed up"
        ∨ e = HTTPException 400 "Student is not signed up for this activity")
  ∧ (is_read rq = true → ∃ r, (handle rq s).2 = inr r).
Proof.
  rewrite handle_result. split.
  - intros e. destruct rq as [| |n em|n em]; try discriminate.
    + rewrite signup_eval. destruct (dict_getitem n s) as [a|]; simpl.
      * destruct (list_contains em (participants a)); simpl; [|discriminate].
        intros [= <-]. right. by left.
      * intros [= <-]. by left.
    + rewrite unregister_eval. destruct (dict_getitem n s) as [a|]; simpl.
      * destruct (list_remove_first em (participants a)); simpl; [discriminate|].
        intros [= <-]. right. by right.
      * intros [= <-]. by left.
  - destruct rq; try discriminate; eauto.
Qed.

Lemma handle_raises_only_http_witness :
  (handle (DeleteUnregister "Chess Club" "nobody@mergington.edu") activities).2
  = inl (HTTPException 400 "Student is not signed up for this activity")
  ∧ (HTTPException 400 "Student is not signed up for this activity"
     = HTTPException 404 "Activity not found"
     ∨ HTTPException 400 "Student is not signed up for this activity"
       = HTTPException 400 "Student is already signed up"
     ∨ HTTPException 400 "Student is not signed up for this activity"
       = HTTPException 400 "Student is not signed up for this activity").
Proof.
  assert (H : (handle (DeleteUnregister "Chess Club" "nobody@mergington.edu")
                 activities).2
              = inl (HTTPException 400 "Student is not signed up for this activity"))
    by reflexivity.
  split; [exact H|].
  exact (proj1 (handle_raises_only_http _ _) _ H).
Defined.

(** ** What no run of the service changes *)

Lemma getitem_set_participants_fields (key n : string) (ps : list string)
    (s : Roster) (a : Activity) :
  dict_getitem n s = Some a →
  ∃ a', dict_getitem n (set_participants key ps s) = Some a'
    ∧ description a' = description a
    ∧ schedule a' = schedule a
    ∧ max_participants a' = max_participants a.
Proof.
  intros Hget. destruct (decide (n = key)) as [->|Hne].
  - eexists. split; [apply (getitem_set_participants_eq _ _ _ _ Hget)|done].
  - exists a. by rewrite getitem_set_participants_ne.
Qed.

(** The store a request leaves is the store it found, or that store with the
    participants of one activity rewritten. *)
Lemma handle_store_shape (rq : request) (s : Roster) :
  (handle rq s).1 = s
  ∨ ∃ key ps, (handle rq s).1 = set_participants key ps s.
Proof.
  rewrite handle_store. destruct rq as [| |n e|n e]; [by left | by left | |].
  - rewrite signup_eval. destruct (dict_getitem n s) as [a|]; [|by left].
    destruct (list_contains e (participants a)); [by left|]. right. eauto.
  - rewrite unregister_eval. destruct (dict_getitem n s) as [a|]; [|by left].
    destruct (list_remove_first e (participants a)); [|by left]. right. eauto.
Qed.

(** X3: no sequence of requests adds, drops, renames or reorders an
    activity, and none changes an activity's description, schedule or
    max_participants, whether the requests return or raise: after any run
    the keys of the store are the same list, and every name is bound to an
    activity with the same three fields as before. *)
Theorem run_keeps_activities (rqs : list request) (s : Roster) :
  keys (run rqs s) = keys s
  ∧ ∀ (n : string) (a : Activity),
      dict_getitem n s = Some a →
      ∃ a', dict_getitem n (run rqs s) = Some a'
        ∧ description a' = description a
        ∧ schedule a' = schedule a
        ∧ max_participants a' = max_participants a.
Proof.
  revert s. induction rqs as [|rq rqs IH]; intros s; simpl.
  - split; [done|]. intros n a Hget. by exists a.
  - destruct (IH (handle rq s).1) as [Hk Hf].
    destruct (handle_store_shape rq s) as [E|(key & ps & E)]; rewrite E in *.
    + split; [done|]. exact Hf.
    + split; [by rewrite Hk, keys_set_participants|].
      intros n a Hget.
      destruct (getitem_set_participants_fields key n ps s a Hget)
        as (a1 & Hget1 & Hd & Hs & Hm).
      destruct (Hf n a1 Hget1) as (a2 & Hget2 & ? & ? & ?).
      exists a2. split; [done|]. split_and!; congruence.
Qed.

Lemma run_keeps_activities_witness :
  keys (run [PostSignup "Gym Class" "amy@mergington.edu";
             DeleteUnregister "Gym Class" "john@mergington.edu";
             DeleteUnregister "Knitting" "john@mergington.edu"] activities)
  = keys activities
  ∧ ∃ a', dict_getitem "Gym Class"
            (run [PostSignup "Gym Class" "amy@mergington.edu";
                  DeleteUnregister "Gym Class" "john@mergington.edu";
                  DeleteUnregister "Knitting" "john@mergington.edu"] activities)
          = Some a'
      ∧ description a' = "Physical education and sports activities"
      ∧ schedule a' = "Mondays, Wednesdays, Fridays, 2:00 PM - 3:00 PM"
      ∧ max_participants a' = 30.
Proof.
  destruct (run_keeps_activities
              [PostSignup "Gym Class" "amy@mergington.edu";
               DeleteUnregister "Gym Class" "john@mergington.edu";
               DeleteUnregister "Knitting" "john@mergington.edu"] activities)
    as [Hk Hf].
  split; [exact Hk|].
  exact (Hf "Gym Class"
           (mkActivity "Physical education and sports activities"
              "Mondays, Wednesdays, Fridays, 2:00 PM - 3:00 PM" 30
              ["john@mergington.edu"; "olivia@mergington.edu"]) eq_refl).
Defined.

(** ** Repeated and reversed calls *)

Lemma count_occ_remove_first (x y : string) (l r : list string) :
  list_remove_first x l = Some r →
  count_occ String.string_dec l y
  = (count_occ String.string_dec r y + (if decide (y = x) then 1 else 0))%nat.
Proof.
  intros (l1 & l2 & -> & _ & ->)%list_remove_first_split.
  rewrite !count_occ_app. simpl.
  destruct (String.string_dec x y) as [->|Hne]; case_decide; try congruence; lia.
Qed.

(** X4: an unregister that goes through takes away one occurrence of the
    email and no occurrence of any other email, so the list is one shorter;
    the email is still a participant afterwards exactly when it was listed
    more than once. *)
Theorem unregister_removes_one_occurrence (s : Roster) (activity_name email : string)
    (a : Activity) :
  dict_getitem activity_name s = Some a →
  email ∈ participants a →
  ∃ s' a' m,
    unregister_from_activity activity_name email s = (s', inr m)
    ∧ dict_getitem activity_name s' = Some a'
    ∧ S (length (participants a')) = length (participants a)
    ∧ (∀ x, count_occ String.string_dec (participants a) x
            = (count_occ String.string_dec (participants a') x
               + (if decide (x = email) then 1 else 0))%nat)
    ∧ (email ∈ participants a'
       ↔ (2 ≤ count_occ String.string_dec (participants a) email)%nat).
Proof.
  intros Hget Hin.
  destruct (unregister_registered _ _ _ _ Hget Hin) as (ps & Hps & ->).
  eexists _, _, _. split; [done|].
  split; [apply (getitem_set_participants_eq _ _ _ _ Hget)|]. simpl.
  split_and!.
  - apply list_remove_first_split in Hps as (l1 & l2 & -> & _ & ->).
    rewrite !length_app. simpl. lia.
  - intros x. by apply count_occ_remove_first.
  - rewrite (count_occ_remove_first email email _ _ Hps).
    rewrite decide_True by done.
    rewrite list_elem_of_In, (count_occ_In String.string_dec). lia.
Qed.

Lemma unregister_removes_one_occurrence_witness :
  ∃ s' a' m,
    unregister_from_activity "Test Activity" "student2@mergington.edu"
      unregister_test_activities = (s', inr m)
    ∧ dict_getitem "Test Activity" s' = Some a'
    ∧ S (length (participants a')) = 2%nat.
Proof.
  assert (Hin : "student2@mergington.edu"
                ∈ ["student1@mergington.edu"; "student2@mergington.edu"])
    by (apply list_contains_true; reflexivity).
  destruct (unregister_removes_one_occurrence unregister_test_activities
              "Test Activity" "student2@mergington.edu"
              (mkActivity "A test activity" "Test schedule" 3
                 ["student1@mergington.edu"; "student2@mergington.edu"])
              eq_refl Hin) as (s' & a' & m & E & G & L & _).
  exists s', a', m. repeat split; assumption.
Defined.

Lemma run_cons (rq : request) (rqs : list request) (s : Roster) :
  run (rq :: rqs) s = run rqs (handle rq s).1.
Proof. reflexivity. Qed.

(** X5: a signup that went through cannot be repeated: the same call on the
    store it left raises the 400 "Student is already signed up" and leaves
    that store as it is. *)
Theorem signup_twice (s : Roster) (activity_name email : string) (a : Activity) :
  dict_getitem activity_name s = Some a →
  email ∉ participants a →
  ∃ s1 m,
    signup_for_activity activity_name email s = (s1, inr m)
    ∧ signup_for_activity activity_name email s1
      = (s1, inl (HTTPException 400 "Student is already signed up"))
    ∧ run [PostSignup activity_name email; PostSignup activity_name email] s
      = run [PostSignup activity_name email] s.
Proof.
  intros Hget Hnin.
  pose proof (signup_fresh _ _ _ _ Hget Hnin) as Hs.
  pose proof (getitem_set_participants_eq _ (list_append (participants a) email)
                _ _ Hget) as Hget1.
  assert (Hin : email ∈ list_append (participants a) email).
  { unfold list_append. rewrite elem_of_app, list_elem_of_singleton. by right. }
  pose proof (signup_registered _ _ email _ Hget1 Hin) as Hs1.
  eexists _, _. split; [exact Hs|]. split; [exact Hs1|].
  rewrite !run_cons, !handle_store, Hs. simpl. by rewrite Hs1.
Qed.

Lemma signup_twice_witness :
  ∃ s1 m,
    signup_for_activity "Math Club" "bob@mergington.edu" integrity_test_activities
    = (s1, inr m)
    ∧ signup_for_activity "Math Club" "bob@mergington.edu" s1
      = (s1, inl (HTTPException 400 "Student is already signed up")).
Proof.
  assert (Hnin : "bob@mergington.edu" ∉ ["alice@mergington.edu"])
    by (apply list_contains_false; reflexivity).
  destruct (signup_twice integrity_test_activities "Math Club" "bob@mergington.edu"
              (mkActivity "Mathematics activities" "Mondays 3-4 PM" 2
                 ["alice@mergington.edu"]) eq_refl Hnin)
    as (s1 & m & E1 & E2 & _).
  exists s1, m. split; assumption.
Defined.

(** X6: when the activity lists no email twice, an unregister that went
    through cannot be repeated: the email is gone, and the same call on the
    store it left raises the 400 "Student is not signed up for this
    activity" and leaves that store as it is. *)
Theorem unregister_twice (s : Roster) (activity_name email : string) (a : Activity) :
  dict_getitem activity_name s = Some a →
  NoDup (participants a) →
  email ∈ participants a →
  ∃ s1 a1 m,
    unregister_from_activity activity_name email s = (s1, inr m)
    ∧ dict_getitem activity_name s1 = Some a1
    ∧ (email ∉ participants a1)
    ∧ unregister_from_activity activity_name email s1
      = (s1, inl (HTTPException 400 "Student is not signed up for this activity")).
Proof.
  intros Hget Hnd Hin.
  destruct (unregister_registered _ _ _ _ Hget Hin) as (ps & Hps & Hu).
  destruct (NoDup_list_remove_first _ _ _ Hnd Hps) as [_ Hnin].
  pose proof (getitem_set_participants_eq _ ps _ _ Hget) as Hget1.
  eexists _, _, _. split; [exact Hu|]. split; [exact Hget1|]. split; [exact Hnin|].
  by apply (unregister_unregistered _ _ email _ Hget1).
Qed.

Lemma unregister_twice_witness :
  ∃ s1 a1 m,
    unregister_from_activity "Test Activity" "student1@mergington.edu"
      unregister_test_activities = (s1, inr m)
    ∧ dict_getitem "Test Activity" s1 = Some a1
    ∧ unregister_from_activity "Test Activity" "student1@mergington.edu" s1
      = (s1, inl (HTTPException 400 "Student is not signed up for this activity")).
Proof.
  assert (Hin : "student1@mergington.edu"
                ∈ ["student1@mergington.edu"; "student2@mergington.edu"])
    by (apply list_contains_true; reflexivity).
  assert (Hnd : NoDup ["student1@mergington.edu"; "student2@mergington.edu"]).
  { repeat (apply NoDup_cons; split; [apply list_contains_false; reflexivity|]).
    apply NoDup_nil_2. }
  destruct (unregister_twice unregister_test_activities "Test Activity"
              "student1@mergington.edu"
              (mkActivity "A test activity" "Test schedule" 3
                 ["student1@mergington.edu"; "student2@mergington.edu"])
              eq_refl Hnd Hin) as (s1 & a1 & m & E1 & G & _ & E2).
  exists s1, a1, m. repeat split; assumption.
Defined.

(** The precondition of X6 is needed: on a list that holds the email twice,
    one unregister leaves the student registered. *)
Example unregister_listed_twice :
  unregister_from_activity "Math Club" "alice@mergington.edu"
    [("Math Club",
      mkActivity "Mathematics activities" "Mondays 3-4 PM" 2
        ["alice@mergington.edu"; "alice@mergington.edu"])]
  = ([("Math Club",
       mkActivity "Mathematics activities" "Mondays 3-4 PM" 2
         ["alice@mergington.edu"])],
     inr (mkMessage "Unregistered alice@mergington.edu from Math Club")).
Proof. reflexivity. Qed.

(** X7: unregister followed by signup of the same email does not in general
    restore the store: for an email listed once, with [l1] before it and
    [l2] after it, both calls return normally and the participants end as
    [l1 ++ l2 ++ [email]]; the email has moved to the end.  The store is the
    one before the two calls exactly when the email was the last
    participant. *)
Theorem unregister_signup_moves_last (s : Roster) (activity_name email : string)
    (a : Activity) (l1 l2 : list string) :
  dict_getitem activity_name s = Some a →
  participants a = l1 ++ email :: l2 →
  email ∉ l1 →
  email ∉ l2 →
  ∃ s1 s2 a2 m1 m2,
    unregister_from_activity activity_name email s = (s1, inr m1)
    ∧ signup_for_activity activity_name email s1 = (s2, inr m2)
    ∧ dict_getitem activity_name s2 = Some a2
    ∧ participants a2 = l1 ++ l2 ++ [email]
    ∧ (s2 = s ↔ l2 = []).
Proof.
  intros Hget Hps Hn1 Hn2.
  assert (Hin : email ∈ participants a).
  { rewrite Hps, elem_of_app, elem_of_cons. auto. }
  destruct (unregister_registered _ _ _ _ Hget Hin) as (ps & Hrem & Hu).
  assert (ps = l1 ++ l2) as ->.
  { apply list_remove_first_split in Hrem as (k1 & k2 & Hk & Hnk & ->).
    rewrite Hps in Hk.
    destruct (decide (length l1 = length k1)) as [Hlen|Hlen].
    - apply app_inj_1 in Hk as [-> [= ->]]; done.
    - exfalso. clear -Hk Hn1 Hnk Hlen. revert k1 Hk Hnk Hlen.
      induction l1 as [|x l1 IH]; intros [|y k1] Hk Hnk Hlen; simpl in *;
        try done; injection Hk as -> Hk.
      + apply Hnk. apply elem_of_cons. by left.
      + apply Hn1. apply elem_of_cons. by left.
      + apply (IH ltac:(rewrite not_elem_of_cons in Hn1; tauto) k1 Hk);
          [rewrite not_elem_of_cons in Hnk; tauto | lia]. }
  pose proof (getitem_set_participants_eq _ (l1 ++ l2) _ _ Hget) as Hget1.
  assert (Hnin : email ∉ l1 ++ l2) by (rewrite elem_of_app; tauto).
  pose proof (signup_fresh _ _ email _ Hget1 Hnin) as Hs. simpl in Hs.
  rewrite set_participants_twice in Hs.
  pose proof (getitem_set_participants_eq _ (list_append (l1 ++ l2) email)
                _ _ Hget) as Hget2.
  eexists _, _, _, _, _. split; [exact Hu|]. split; [exact Hs|].
  split; [exact Hget2|]. simpl. unfold list_append in *.
  split; [by rewrite <- app_assoc|]. split.
  - intros Heq. rewrite Heq, Hget in Hget2. injection Hget2 as Ha.
    apply (f_equal participants) in Ha. simpl in Ha. rewrite Hps in Ha.
    rewrite <- app_assoc in Ha. apply app_inv_head in Ha.
    destruct l2 as [|y l2]; [done|]. simpl in Ha. injection Ha as <- _.
    exfalso. apply Hn2. apply elem_of_cons. by left.
  - intros ->. rewrite app_nil_r in *. rewrite <- Hps.
    by apply set_participants_same.
Qed.

Lemma unregister_signup_moves_last_witness :
  ∃ s1 s2 a2 m1 m2,
    unregister_from_activity "Test Activity" "student1@mergington.edu"
      unregister_test_activities = (s1, inr m1)
    ∧ signup_for_activity "Test Activity" "student1@mergington.edu" s1 = (s2, inr m2)
    ∧ dict_getitem "Test Activity" s2 = Some a2
    ∧ participants a2
      = [] ++ ["student2@mergington.edu"] ++ ["student1@mergington.edu"].
Proof.
  assert (Hn1 : "student1@mergington.edu" ∉ @nil string) by apply not_elem_of_nil.
  assert (Hn2 : "student1@mergington.edu" ∉ ["student2@mergington.edu"])
    by (apply list_contains_false; reflexivity).
  destruct (unregister_signup_moves_last unregister_test_activities "Test Activity"
              "student1@mergington.edu"
              (mkActivity "A test activity" "Test schedule" 3
                 ["student1@mergington.edu"; "student2@mergington.edu"])
              [] ["student2@mergington.edu"] eq_refl eq_refl Hn1 Hn2)
    as (s1 & s2 & a2 & m1 & m2 & E1 & E2 & G & P & _).
  exists s1, s2, a2, m1, m2. repeat split; assumption.
Defined.

(** ** Requests on different activities *)

Lemma set_participants_comm (k1 k2 : string) (p1 p2 : list string) (s : Roster) :
  k1 ≠ k2 →
  set_participants k1 p1 (set_participants k2 p2 s)
  = set_participants k2 p2 (set_participants k1 p1 s).
Proof.
  intros Hne. induction s as [|[k a] s IH]; simpl; [done|].
  destruct (String.eqb k k1) eqn:E1, (String.eqb k k2) eqn:E2; simpl;
    rewrite ?E1, ?E2; try done.
  - apply String.eqb_eq in E1, E2. congruence.
  - by rewrite IH.
Qed.

(** A signup or an unregister for activity [n] reads the store only through
    [activities[n]]: what it answers and what it writes are functions of
    the activity found there. *)
Lemma handle_reads_one_activity (rq : request) (n e : string) :
  rq = PostSignup n e ∨ rq = DeleteUnregister n e →
  ∃ (F : option Activity → option (list string))
    (G : option Activity → exn + response),
    ∀ s, handle rq s
         = (match F (dict_getitem n s) with
            | Some ps => set_participants n ps s
            | None => s
            end,
            G (dict_getitem n s)).
Proof.
  intros [->| ->].
  - exists (λ o, match o with
                 | Some a => if list_contains e (participants a) then None
                             else Some (list_append (participants a) e)
                 | None => None
                 end),
           (λ o, match o with
                 | Some a => if list_contains e (participants a)
                             then inl AlreadyRegistered
                             else inr (MessageJson
                                         (mkMessage ("Signed up " +:+ e +:+ " for " +:+ n)))
                 | None => inl NotFound
                 end).
    intros s. rewrite (surjective_pairing (handle _ s)).
    rewrite handle_store, handle_result, signup_eval.
    destruct (dict_getitem n s) as [a|]; [|done].
    by destruct (list_contains e (participants a)).
  - exists (λ o, match o with
                 | Some a => list_remove_first e (participants a)
                 | None => None
                 end),
           (λ o, match o with
                 | Some a =>
                     match list_remove_first e (participants a) with
                     | Some _ => inr (MessageJson
                                        (mkMessage ("Unregistered " +:+ e +:+ " from " +:+ n)))
                     | None => inl NotRegistered
                     end
                 | None => inl NotFound
                 end).
    intros s. rewrite (surjective_pairing (handle _ s)).
    rewrite handle_store, handle_result, unregister_eval.
    destruct (dict_getitem n s) as [a|]; [|done].
    by destruct (list_remove_first e (participants a)).
Qed.

(** X8: two mutating requests (each a signup or an unregister) that name
    different activities do not interfere: served in either order they
    leave the same store, and each gets the answer it would have got had it
    been served first. *)
Theorem requests_on_different_activities_commute (s : Roster)
    (n1 e1 n2 e2 : string) (rq1 rq2 : request) :
  n1 ≠ n2 →
  rq1 = PostSignup n1 e1 ∨ rq1 = DeleteUnregister n1 e1 →
  rq2 = PostSignup n2 e2 ∨ rq2 = DeleteUnregister n2 e2 →
  run [rq1; rq2] s = run [rq2; rq1] s
  ∧ (handle rq1 (handle rq2 s).1).2 = (handle rq1 s).2
  ∧ (handle rq2 (handle rq1 s).1).2 = (handle rq2 s).2.
Proof.
  intros Hne H1 H2.
  destruct (handle_reads_one_activity rq1 n1 e1 H1) as (F1 & G1 & E1).
  destruct (handle_reads_one_activity rq2 n2 e2 H2) as (F2 & G2 & E2).
  assert (Hg1 : dict_getitem n1 (handle rq2 s).1 = dict_getitem n1 s).
  { rewrite E2. simpl. destruct (F2 (dict_getitem n2 s)); [|done].
    by apply getitem_set_participants_ne. }
  assert (Hg2 : dict_getitem n2 (handle rq1 s).1 = dict_getitem n2 s).
  { rewrite E1. simpl. destruct (F1 (dict_getitem n1 s)); [|done].
    by apply getitem_set_participants_ne. }
  split_and!.
  - rewrite !run_cons. simpl.
    rewrite (E2 (handle rq1 s).1), (E1 (handle rq2 s).1), Hg1, Hg2. simpl.
    rewrite E1, E2. simpl.
    destruct (F1 (dict_getitem n1 s)) as [p1|], (F2 (dict_getitem n2 s)) as [p2|];
      try done.
    symmetry. by apply set_participants_comm.
  - by rewrite (E1 (handle rq2 s).1), Hg1, E1.
  - by rewrite (E2 (handle rq1 s).1), Hg2, E2.
Qed.

Lemma requests_on_different_activities_commute_witness :
  run [PostSignup "Chess Club" "amy@mergington.edu";
       DeleteUnregister "Art Club" "mia@mergington.edu"] activities
  = run [DeleteUnregister "Art Club" "mia@mergington.edu";
         PostSignup "Chess Club" "amy@mergington.edu"] activities.
Proof.
  assert (Hne : "Chess Club" ≠ "Art Club") by discriminate.
  exact (proj1 (requests_on_different_activities_commute activities
                  "Chess Club" "amy@mergington.edu"
                  "Art Club" "mia@mergington.edu" _ _
                  Hne (or_introl eq_refl) (or_intror eq_refl))).
Defined.

(** ** The test harness *)

Lemma dict_setitem_new (key : string) (value : Activity) (d : Roster) :
  key ∉ keys d → dict_setitem key value d = d ++ [(key, value)].
Proof.
  unfold keys. induction d as [|[k a] d IH]; simpl; [done|].
  rewrite not_elem_of_cons. intros [Hne Hnin].
  destruct (String.eqb_spec k key) as [->|_]; [done|]. by rewrite IH.
Qed.

Lemma dict_update_new (d other : Roster) :
  NoDup (keys d ++ keys other) → dict_update d other = d ++ other.
Proof.
  unfold dict_update, keys. revert d.
  induction other as [|[k a] other IH]; intros d Hnd; simpl.
  - by rewrite app_nil_r.
  - rewrite dict_setitem_new.
    + rewrite IH; [by rewrite <- app_assoc|].
      rewrite fmap_app. simpl. by rewrite <- app_assoc.
    + simpl in Hnd. apply NoDup_app in Hnd as (_ & Hd & _).
      intros Hin. apply (Hd k Hin). apply elem_of_cons. by left.
Qed.

Lemma dict_update_empty (other : Roster) :
  NoDup (keys other) → dict_update [] other = other.
Proof. intros Hnd. by rewrite dict_update_new. Qed.

(** X9: the [sample_activities] fixture gives a test the known state, no
    matter what the store held, and puts the store back afterwards: for a
    store with distinct keys, after the set-up, any sequence of requests and
    the tear-down, the store is again the one the fixture found. *)
Theorem sample_activities_restores (s : Roster) (rqs : list request) :
  NoDup (keys s) →
  ∃ original_activities,
    sample_activities_setup s = (sample_activities_state, inr original_activities)
    ∧ sample_activities_teardown original_activities
        (run rqs sample_activities_state)
      = (s, inr ()).
Proof.
  intros Hnd. exists s. split.
  - unfold sample_activities_setup, activities_copy, activities_clear,
      activities_update, mbind, M_bind, mret, M_ret. simpl. done.
  - unfold sample_activities_teardown, activities_clear, activities_update,
      mbind, M_bind. simpl. by rewrite dict_update_empty.
Qed.

Lemma sample_activities_restores_witness :
  ∃ original_activities,
    sample_activities_setup activities
    = (sample_activities_state, inr original_activities)
    ∧ sample_activities_teardown original_activities
        (run [PostSignup "Empty Activity" "test2@mergington.edu";
              DeleteUnregister "Test Activity" "test1@mergington.edu"]
           sample_activities_state)
      = (activities, inr ()).
Proof.
  assert (Hnd : NoDup (keys activities)).
  { unfold keys, activities. simpl.
    repeat (apply NoDup_cons; split; [apply list_contains_false; reflexivity|]).
    apply NoDup_nil_2. }
  exact (sample_activities_restores activities _ Hnd).
Defined.

(** X10: [setup_method] makes a test independent of the tests before it: for
    a dict literal with distinct keys, the store after it is that literal
    whatever the store held, so the requests of the test end in the same
    store and get the same answers after any history. *)
Theorem setup_method_isolates (known_state s s' : Roster) (rqs : list request) :
  NoDup (keys known_state) →
  setup_method known_state s = (known_state, inr ())
  ∧ run rqs (setup_method known_state s).1 = run rqs (setup_method known_state s').1
  ∧ ∀ rq, (handle rq (setup_method known_state s).1).2
          = (handle rq (setup_method known_state s').1).2.
Proof.
  intros Hnd.
  assert (E : ∀ t, setup_method known_state t = (known_state, inr ())).
  { intros t. unfold setup_method, activities_clear, activities_update, mbind,
      M_bind. simpl. by rewrite dict_update_empty. }
  by rewrite !E.
Qed.

Lemma setup_method_isolates_witness :
  setup_method signup_test_activities activities = (signup_test_activities, inr ())
  ∧ run [PostSignup "Test Activity" "newstudent@mergington.edu"]
      (setup_method signup_test_activities activities).1
    = run [PostSignup "Test Activity" "newstudent@mergington.edu"]
        (setup_method signup_test_activities integrity_test_activities).1.
Proof.
  assert (Hnd : NoDup (keys signup_test_activities)).
  { unfold keys, signup_test_activities. simpl.
    repeat (apply NoDup_cons; split; [apply list_contains_false; reflexivity|]).
    apply NoDup_nil_2. }
  destruct (setup_method_isolates signup_test_activities activities
              integrity_test_activities
              [PostSignup "Test Activity" "newstudent@mergington.edu"] Hnd)
    as (E & R & _).
  split; assumption.
Defined.
